(** * Schematic field placement (src/text/sch_field.ts)

    A shallow embedding of the [SchField] class of the schematic viewer and
    the properties its specification states about it.

    JavaScript numbers are IEEE 754 binary64 values, so coordinates, angles
    and matrix coefficients are primitive floats: [==], [<], [>], [Math.abs],
    [+], [-] and unary minus are the float operations, rounding included.

    The classes [SchField] imports ([Vec2], [Angle], [Matrix3], [BBox],
    [EDAText]) are written here from what the specification says about them,
    or taken as parameters of the section that holds the accessors where the
    specification does not fix how they compute. *)

From Stdlib Require Import Floats String List Bool.
From Stdlib Require Import ZArith.
Import ListNotations.

Local Open Scope string_scope.
Local Open Scope list_scope.
Local Open Scope float_scope.

(* Decimal literals such as 7.62 stand for the nearest double, as they do in
   the source. *)
Set Warnings "-inexact-float".

(** ** Numbers *)

Module Number.

(** SameValueZero, the equality under which JavaScript identifies the two
    zeros and identifies NaN with itself. *)
Definition same_value_zero (a b : float) : bool :=
  (a =? b) || (is_nan a && is_nan b).

(** [a > b] of the source is [b < a]. *)
Definition gtb (a b : float) : bool := b <? a.

End Number.

(** ** The collaborating classes *)

Module Vec2.

(** Modelled from the spec: [Vec2] (src/math/vec2.ts is not among the
    sources) is "a 2D point/vector with component-wise add/sub". *)
Record t : Type := new { x : float; y : float }.

Definition add (a b : t) : t := new (x a + x b) (y a + y b).

Definition sub (a b : t) : t := new (x a - x b) (y a - y b).

(** The assignment [v.y = e]. *)
Definition set_y (v : t) (e : float) : t := new (x v) e.

(** Component-wise SameValueZero. *)
Definition equiv (a b : t) : Prop :=
  Number.same_value_zero (x a) (x b) = true /\
  Number.same_value_zero (y a) (y b) = true.

End Vec2.

Module Angle.

(** Modelled from the spec: [Angle] (src/math/angle.ts is not among the
    sources) is "a scalar rotation in degrees"; [from_degrees] wraps a
    degree value and [degrees] reads it back. How a point is rotated is a
    parameter of the accessors below. *)
Record t : Type := from_degrees { degrees : float }.

End Angle.

Module Matrix3.

(** Modelled from the spec: [Matrix3] (src/math/matrix3.ts is not among the
    sources) gives "indexed access to its underlying coefficients", nine of
    them in row-major order. How a point is mapped is a parameter of the
    accessors below. *)
Record t : Type := new { elements : list float }.

Definition identity : t := new [1; 0; 0; 0; 1; 0; 0; 0; 1].

(** [m.elements[i]!]: reading past the end of a JavaScript array gives
    [undefined], which [Math.abs] turns into NaN. *)
Definition element (m : t) (i : nat) : float := nth i (elements m) nan.

End Matrix3.

Module BBox.

(** Modelled from the spec: the text box (src/math/bbox.ts is not among the
    sources) is a pair of corners, [{start: Vec2, end: Vec2}], each of which
    can be read and assigned. How its [center] is computed is a parameter of
    the accessors below. *)
Record t : Type := new { start : Vec2.t; end_ : Vec2.t }.

(** The assignment [bbox.start = v]. *)
Definition set_start (b : t) (v : Vec2.t) : t := new v (end_ b).

(** The assignment [bbox.end = v]. *)
Definition set_end (b : t) (v : Vec2.t) : t := new (start b) v.

End BBox.

Module HAlign.

Inductive t : Type := left | center | right.

Definition swap (a : t) : t :=
  match a with left => right | center => center | right => left end.

End HAlign.

Module VAlign.

Inductive t : Type := top | center | bottom.

Definition swap (a : t) : t :=
  match a with top => bottom | center => center | bottom => top end.

End VAlign.

Module Parent.

(** [type Parent = { position: Vec2; transform: Matrix3 }] *)
Record t : Type := new { position : Vec2.t; transform : Matrix3.t }.

End Parent.

(** The state of a field: the attributes it inherits from [EDAText] and the
    optional parent given to the constructor. *)
Record SchField : Type := {
  text : string;
  text_pos : Vec2.t;
  text_angle : Angle.t;
  h_align : HAlign.t;
  v_align : VAlign.t;
  parent : option Parent.t
}.

(** ** The console

    [bounding_box] and [is_vert_justify_flipped] call [console.log]. The
    accessors that reach such a call are computations in a writer monad over
    the lines printed. *)

Module Console.

Inductive arg : Type :=
| Str (s : string)
| Num (n : float)
| Point (v : Vec2.t)
| Box (b : BBox.t).

(** One call of [console.log] with its arguments. *)
Definition line : Type := list arg.

Definition M (A : Type) : Type := (A * list line)%type.

Definition ret {A : Type} (a : A) : M A := (a, []).

Definition bind {A B : Type} (m : M A) (k : A -> M B) : M B :=
  let (a, out1) := m in
  let (b, out2) := k a in
  (b, out1 ++ out2).

Definition log (args : line) : M unit := (tt, [args]).

(** The value a computation returns. *)
Definition value {A : Type} (m : M A) : A := fst m.

(** The lines a computation prints. *)
Definition printed {A : Type} (m : M A) : list line := snd m.

End Console.

Notation "x <- m ;; k" := (Console.bind m (fun x => k))
  (at level 61, m at next level, right associativity).
Notation "m ;;; k" := (Console.bind m (fun _ => k))
  (at level 61, right associativity).

(** ** Sample collaborators and fields

    Concrete instances of the parameters of the accessors, and the fields the
    accessors are run on further down. *)

Module Sample.

(** Modelled from the spec: [Matrix3.transform] (src/math/matrix3.ts is not
    among the sources) applies a "2x2 linear map + translation" whose
    coefficients are read in row-major order, [[a,b,c,d,e,f,_,_,_]]. *)
Definition transform (m : Matrix3.t) (v : Vec2.t) : Vec2.t :=
  let c := Matrix3.element m in
  Vec2.new (c 0%nat * Vec2.x v + c 1%nat * Vec2.y v + c 2%nat)
           (c 3%nat * Vec2.x v + c 4%nat * Vec2.y v + c 5%nat).

(** [Angle.rotate_point] at an angle of 0 degrees, the angle of every sample
    field: the point stays where it is. *)
Definition rotate_point (a : Angle.t) (point origin : Vec2.t) : Vec2.t :=
  point.

(** A text box [w] wide and [h] high whose start corner is the anchor of the
    text. *)
Definition get_text_box (w h : float) (f : SchField) : BBox.t :=
  BBox.new (text_pos f) (Vec2.add (text_pos f) (Vec2.new w h)).

(** The midpoint of the two corners. *)
Definition center (b : BBox.t) : Vec2.t :=
  Vec2.new ((Vec2.x (BBox.start b) + Vec2.x (BBox.end_ b)) / 2)
           ((Vec2.y (BBox.start b) + Vec2.y (BBox.end_ b)) / 2).

(** The matrices of a symbol placed at 0 and at 90 degrees, as the comment in
    [draw_rotation] lists them. *)
Definition rot0 : Matrix3.t := Matrix3.new [1; 0; 0; 0; -1; 0; 0; 0; 1].

Definition rot90 : Matrix3.t := Matrix3.new [0; -1; 0; -1; 0; 0; 0; 0; 1].

(** A field at [pos], not rotated, aligned left and top. *)
Definition field (s : string) (pos : Vec2.t) (p : option Parent.t) : SchField :=
  {| text := s;
     text_pos := pos;
     text_angle := Angle.from_degrees 0;
     h_align := HAlign.left;
     v_align := VAlign.top;
     parent := p |}.

(** The field of the specification's scenarios: "REF1" at (10, 5). *)
Definition ref1 (p : option Parent.t) : SchField :=
  field "REF1" (Vec2.new 10 5) p.

(** The box of "REF1": 7.62 wide, 1.27 high. *)
Definition ref1_box : SchField -> BBox.t := get_text_box 7.62 1.27.

(** A symbol at (101.6, 50.8), not rotated, and one turned by 90 degrees. *)
Definition upright : Parent.t := Parent.new (Vec2.new 101.6 50.8) rot0.

Definition turned : Parent.t := Parent.new (Vec2.new 101.6 50.8) rot90.

(** A symbol whose position is 2^-80 off the origin in x. *)
Definition nearly_at_origin : Parent.t :=
  Parent.new (Vec2.new 0x1p-80 0) rot0.

(** A field 1.27 above a symbol placed at the origin, with a box 5.08 high. *)
Definition u1 : SchField :=
  field "U1" (Vec2.new 2.54 1.27) (Some (Parent.new (Vec2.new 0 0) rot0)).

Definition u1_box : SchField -> BBox.t := get_text_box 7.62 5.08.

(** A field at (25.4, 50.8) whose parent, at (127, 76.2), has the identity
    matrix as its transform. *)
Definition r1 : SchField :=
  field "R1" (Vec2.new 25.4 50.8)
    (Some (Parent.new (Vec2.new 127 76.2) Matrix3.identity)).

(** "REF1" under a parent at (0,0) with the identity matrix. *)
Definition ref1_at_origin : SchField :=
  ref1 (Some (Parent.new (Vec2.new 0 0) Matrix3.identity)).

End Sample.

(** ** The viewer's [select] (class SchematicViewer, src/unnamed/part_000)

    [select] takes a symbol, the name of one, a box or [null], resolves it to
    a box and stores that box as the selection; it throws when something was
    asked for and no box was found. The schematic, the layer set, the
    iterator helper and the [selected] setter of the base [Viewer] are not
    among the sources: they are parameters. *)

Module SchematicViewer.

Section Model.

(** [SchematicSymbol] of src/kicad/schematic.ts. *)
Variable SchematicSymbol : Type.

(** The state of the viewer object. *)
Variable Viewer : Type.

(** [this.schematic.find_symbol(name)]: the symbol with that uuid or
    reference, or [null]. *)
Variable find_symbol : Viewer -> string -> option SchematicSymbol.

(** [this.layers.query_item_bboxes(item)]: the boxes it yields, in order. *)
Variable query_item_bboxes : Viewer -> SchematicSymbol -> list BBox.t.

(** [first(iterable)] of src/base/iterator.ts; [None] is [undefined]. *)
Variable first : list BBox.t -> option BBox.t.

(** The assignment [this.selected = bb]. *)
Variable set_selected : option BBox.t -> Viewer -> Viewer.

(** [SchematicSymbol | string | BBox | null], the type of [value] and of the
    local [item]. *)
Inductive value : Type :=
| Name (s : string)
| Symbol (sym : SchematicSymbol)
| Box (b : BBox.t)
| Null.

(** The [Error] thrown, whose message quotes [value]. *)
Inductive error : Type :=
| Unable_to_select (v : value).

(** How a call ends: what it threw, if anything; the arguments of each
    [console.log]; and the viewer it leaves. *)
Record run : Type := {
  thrown : option error;
  printed : list (value * value);
  viewer_after : Viewer
}.

(** [value != null] *)
Definition is_not_null (v : value) : bool :=
  match v with Null => false | _ => true end.

(** [item instanceof BBox] *)
Definition is_bbox (v : value) : bool :=
  match v with Box _ => true | _ => false end.

(** [item ?? null], as a selection. *)
Definition or_null (item : value) : option BBox.t :=
  match item with Box b => Some b | _ => None end.

Definition select (v : value) (viewer : Viewer) : run :=
  let item := v in
  let item :=
    match item with
    | Name s =>
        match find_symbol viewer s with
        | Some sym => Symbol sym
        | None => Null
        end
    | _ => item
    end in
  let item :=
    match item with
    | Symbol sym =>
        match first (query_item_bboxes viewer sym) with
        | Some b => Box b
        | None => Null
        end
    | _ => item
    end in
  if is_not_null v && negb (is_bbox item) then
    {| thrown := Some (Unable_to_select v);
       printed := [(v, item)];
       viewer_after := viewer |}
  else
    {| thrown := None;
       printed := [];
       viewer_after := set_selected (or_null item) viewer |}.

(** The box a value stands for, if any: a box stands for itself, a symbol for
    the first of its boxes, a name for the first box of the symbol found. *)
Definition resolve (v : value) (viewer : Viewer) : option BBox.t :=
  match v with
  | Name s =>
      match find_symbol viewer s with
      | Some sym => first (query_item_bboxes viewer sym)
      | None => None
      end
  | Symbol sym => first (query_item_bboxes viewer sym)
  | Box b => Some b
  | Null => None
  end.

End Model.

Arguments Name {SchematicSymbol} s.
Arguments Symbol {SchematicSymbol} sym.
Arguments Box {SchematicSymbol} b.
Arguments Null {SchematicSymbol}.
Arguments Unable_to_select {SchematicSymbol} v.
Arguments thrown {SchematicSymbol Viewer} r.
Arguments printed {SchematicSymbol Viewer} r.
Arguments viewer_after {SchematicSymbol Viewer} r.
Arguments select {SchematicSymbol Viewer} find_symbol query_item_bboxes first
  set_selected v viewer.
Arguments resolve {SchematicSymbol Viewer} find_symbol query_item_bboxes first
  v viewer.

End SchematicViewer.

(** ** Further sample data *)

Module Scenario.

(** A text box whose size cannot be computed: both extents are NaN. *)
Definition broken_box : SchField -> BBox.t := Sample.get_text_box nan nan.

(** A centre that does not look at the box: the point (10, 5). *)
Definition fixed_center (b : BBox.t) : Vec2.t := Vec2.new 10 5.

(** A field whose text box starts at its anchor, 2.54 right of and 1.27
    below the upright symbol at (101.6, 50.8). *)
Definition anchored : SchField :=
  Sample.field "C1" (Vec2.new 104.14 52.07) (Some Sample.upright).

(** A viewer as a record: the symbols of its schematic by reference, the
    boxes painted for each reference, and the selection. *)
Record viewer : Type := {
  symbols : list string;
  boxes : list (string * BBox.t);
  selected : option BBox.t
}.

(** Symbols are told apart by their reference. *)
Definition find_symbol (v : viewer) (name : string) : option string :=
  List.find (String.eqb name) (symbols v).

Definition query_item_bboxes (v : viewer) (sym : string) : list BBox.t :=
  map snd (filter (fun entry => String.eqb sym (fst entry)) (boxes v)).

Definition first (l : list BBox.t) : option BBox.t := hd_error l.

Definition set_selected (bb : option BBox.t) (v : viewer) : viewer :=
  {| symbols := symbols v; boxes := boxes v; selected := bb |}.

Definition r1_box : BBox.t := BBox.new (Vec2.new 25.4 50.8) (Vec2.new 33.02 52.07).

(** A schematic with R1 and C1, of which only R1 has been painted. *)
Definition loaded : viewer :=
  {| symbols := ["R1"; "C1"];
     boxes := [("R1", r1_box)];
     selected := None |}.

End Scenario.

(** ** The accessors of [SchField] *)

(** [function mirror(v: number, ref = 0): number] *)
Definition mirror (v ref : float) : float := - (v - ref) + ref.

(** The mirroring step as the specification words it, [2*pos.y - y]. *)
Definition mirror_spec (v ref : float) : float := 2 * ref - v.

Section Placement.

(** [Angle.rotate_point(point, origin)]: the point rotated about a pivot. *)
Variable rotate_point : Angle.t -> Vec2.t -> Vec2.t -> Vec2.t.

(** [Matrix3.transform(vec)]: the point mapped by the matrix. *)
Variable Matrix3_transform : Matrix3.t -> Vec2.t -> Vec2.t.

(** [EDAText.get_text_box()]: the unrotated, unplaced box of the text. *)
Variable get_text_box : SchField -> BBox.t.

(** [BBox.center]. *)
Variable BBox_center : BBox.t -> Vec2.t.

Definition shown_text (f : SchField) : string :=
  if (text f =? "~")%string then "" else text f.

(** [this.parent?.transform ?? Matrix3.identity()] *)
Definition parent_transform (f : SchField) : Matrix3.t :=
  match parent f with
  | Some p => Parent.transform p
  | None => Matrix3.identity
  end.

(** [this.parent?.position ?? new Vec2(0, 0)] *)
Definition parent_origin (f : SchField) : Vec2.t :=
  match parent f with
  | Some p => Parent.position p
  | None => Vec2.new 0 0
  end.

Definition draw_rotation (f : SchField) : Angle.t :=
  let this_deg := Angle.degrees (text_angle f) in
  let parent_transform := parent_transform f in
  let this_deg :=
    if abs (Matrix3.element parent_transform 1) =? 1 then
      if (this_deg =? 0) || (this_deg =? 180) then 90 else 0
    else this_deg in
  Angle.from_degrees this_deg.

Definition position (f : SchField) : Vec2.t :=
  match parent f with
  | Some p =>
      let relative_pos := Vec2.sub (text_pos f) (Parent.position p) in
      let relative_pos := Matrix3_transform (Parent.transform p) relative_pos in
      Vec2.add relative_pos (Parent.position p)
  | None => text_pos f
  end.

Definition bounding_box (f : SchField) : Console.M BBox.t :=
  let bbox := get_text_box f in
  Console.log [Console.Str "initial bb"; Console.Box bbox] ;;;
  let origin := parent_origin f in
  let pos := Vec2.sub (text_pos f) origin in
  let begin := Vec2.sub (BBox.start bbox) origin in
  let end_ := Vec2.sub (BBox.end_ bbox) origin in
  let begin := rotate_point (text_angle f) begin pos in
  let end_ := rotate_point (text_angle f) end_ pos in
  let begin :=
    match parent f with
    | Some _ => Vec2.set_y begin (mirror (Vec2.y begin) (Vec2.y pos))
    | None => begin
    end in
  let end_ :=
    match parent f with
    | Some _ => Vec2.set_y end_ (mirror (Vec2.y end_) (Vec2.y pos))
    | None => end_
    end in
  let transform := parent_transform f in
  let bbox := BBox.set_start bbox (Matrix3_transform transform begin) in
  let bbox := BBox.set_end bbox (Matrix3_transform transform end_) in
  let bbox := BBox.set_start bbox (Vec2.add (BBox.start bbox) origin) in
  Console.ret bbox.

Definition is_horiz_justify_flipped (f : SchField) : Console.M bool :=
  bbox <- bounding_box f ;;
  let center := BBox_center bbox in
  let pos := position f in
  let rot := Angle.degrees (draw_rotation f) in
  let is_vertical := (rot =? 90) || (rot =? 270) in
  Console.ret
    match h_align f with
    | HAlign.left =>
        if is_vertical then Number.gtb (Vec2.y center) (Vec2.y pos)
        else Vec2.x center <? Vec2.x pos
    | HAlign.right =>
        if is_vertical then Vec2.y center <? Vec2.y pos
        else Number.gtb (Vec2.x center) (Vec2.x pos)
    | HAlign.center => false
    end.

Definition effective_horiz_justify (f : SchField) : Console.M HAlign.t :=
  match h_align f with
  | HAlign.left =>
      flipped <- is_horiz_justify_flipped f ;;
      Console.ret (if flipped then HAlign.right else HAlign.left)
  | HAlign.right =>
      flipped <- is_horiz_justify_flipped f ;;
      Console.ret (if flipped then HAlign.left else HAlign.right)
  | HAlign.center => Console.ret HAlign.center
  end.

Definition is_vert_justify_flipped (f : SchField) : Console.M bool :=
  bbox <- bounding_box f ;;
  let center := BBox_center bbox in
  let pos := position f in
  let rot := Angle.degrees (draw_rotation f) in
  Console.log [Console.Str "draw rot"; Console.Num rot;
               Console.Str "center"; Console.Point center] ;;;
  let is_vertical := (rot =? 90) || (rot =? 270) in
  Console.ret
    match v_align f with
    | VAlign.top =>
        if is_vertical then Vec2.x center <? Vec2.y pos
        else Vec2.y center <? Vec2.y pos
    | VAlign.bottom =>
        if is_vertical then Number.gtb (Vec2.x center) (Vec2.x pos)
        else Number.gtb (Vec2.y center) (Vec2.y pos)
    | VAlign.center => false
    end.

Definition effective_vert_justify (f : SchField) : Console.M VAlign.t :=
  match v_align f with
  | VAlign.top =>
      flipped <- is_vert_justify_flipped f ;;
      Console.ret (if flipped then VAlign.bottom else VAlign.top)
  | VAlign.bottom =>
      flipped <- is_vert_justify_flipped f ;;
      Console.ret (if flipped then VAlign.top else VAlign.bottom)
  | VAlign.center => Console.ret VAlign.center
  end.

(** *** The stages of [bounding_box]

    Names for the intermediate values of [bounding_box], so that the
    statements below can speak of a corner "after rotation" or "as given to
    the transform". *)

(** [pos]: the anchor of the text relative to the parent's position. *)
Definition local_pos (f : SchField) : Vec2.t :=
  Vec2.sub (text_pos f) (parent_origin f).

(** A corner of the text box moved by [-origin] and rotated about [pos] by
    [text_angle]. *)
Definition rotated_corner (f : SchField) (corner : Vec2.t) : Vec2.t :=
  rotate_point (text_angle f) (Vec2.sub corner (parent_origin f))
    (local_pos f).

(** The corner as it is given to the transform: the rotated corner, its y
    replaced by [mirror] about [pos.y] when there is a parent. *)
Definition placed_corner (f : SchField) (corner : Vec2.t) : Vec2.t :=
  let c := rotated_corner f corner in
  match parent f with
  | Some _ => Vec2.set_y c (mirror (Vec2.y c) (Vec2.y (local_pos f)))
  | None => c
  end.

(** The corner given to the transform if the mirroring were computed as the
    specification words it. *)
Definition placed_corner_spec (f : SchField) (corner : Vec2.t) : Vec2.t :=
  let c := rotated_corner f corner in
  match parent f with
  | Some _ => Vec2.set_y c (mirror_spec (Vec2.y c) (Vec2.y (local_pos f)))
  | None => c
  end.

(** The output of the transform for a corner of the text box. *)
Definition transformed_corner (f : SchField) (corner : Vec2.t) : Vec2.t :=
  Matrix3_transform (parent_transform f) (placed_corner f corner).

(** *** Names for expressions of the source *)

(** [rot == 90 || rot == 270], the [is_vertical] of the two justify
    getters. *)
Definition is_vertical (rot : float) : bool := (rot =? 90) || (rot =? 270).

(** [Math.abs(parent_transform.elements[1]!) == 1], the test of
    [draw_rotation] for a parent rotated by 90 or 270 degrees. *)
Definition quarter_turned (f : SchField) : bool :=
  abs (Matrix3.element (parent_transform f) 1) =? 1.

(** KiCAD's 2x2 matrix of a [Matrix3], as the comment in [draw_rotation]
    gives it: [[m.elements[0], m.elements[1], m.elements[3],
    m.elements[4]]]. *)
Definition kicad_matrix (m : Matrix3.t) : list float :=
  [Matrix3.element m 0; Matrix3.element m 1;
   Matrix3.element m 3; Matrix3.element m 4].

(** ** Arithmetic of the doubles involved *)

Lemma same_value_zero_refl (a : float) : Number.same_value_zero a a = true.
Proof.
  unfold Number.same_value_zero, is_nan.
  destruct (a =? a); reflexivity.
Qed.

(** Subtracting zero changes nothing, not even the sign of a zero. *)
Lemma sub_zero_r (a : float) : a - 0 = a.
Proof.
  apply Prim2SF_inj. rewrite sub_spec.
  change (Prim2SF 0) with (S754_zero false).
  destruct (Prim2SF a) as [[|]|[|]| |[|] m e]; reflexivity.
Qed.

(** Adding zero gives the same number, except that [-0 + 0] is [+0]. *)
Lemma add_zero_r (a : float) : Number.same_value_zero (a + 0) a = true.
Proof.
  destruct (Prim2SF a) as [[|]|s| |s m e] eqn:E.
  1: { rewrite <- (SF2Prim_Prim2SF a), E. vm_compute. reflexivity. }
  all: replace (a + 0) with a; [ apply same_value_zero_refl | ].
  all: apply Prim2SF_inj; rewrite add_spec, E; reflexivity.
Qed.

(** Two numbers that [==] tells apart, the first of them not NaN, are
    different. *)
Lemma eqb_false_neq (a b : float) :
  (a =? a) = true -> (a =? b) = false -> a <> b.
Proof.
  intros Hrefl Hne Heq. subst b. rewrite Hrefl in Hne. discriminate.
Qed.

Lemma Vec2_sub_zero (v : Vec2.t) : Vec2.sub v (Vec2.new 0 0) = v.
Proof.
  destruct v as [vx vy]. unfold Vec2.sub. simpl.
  rewrite !sub_zero_r. reflexivity.
Qed.

Lemma Vec2_add_zero (v : Vec2.t) : Vec2.equiv (Vec2.add v (Vec2.new 0 0)) v.
Proof.
  destruct v as [vx vy]. split; simpl; apply add_zero_r.
Qed.

(** ** What the accessors return and print *)

Lemma bounding_box_value (f : SchField) :
  Console.value (bounding_box f) =
  BBox.new
    (Vec2.add (transformed_corner f (BBox.start (get_text_box f)))
       (parent_origin f))
    (transformed_corner f (BBox.end_ (get_text_box f))).
Proof.
  unfold bounding_box, transformed_corner, placed_corner, rotated_corner,
    local_pos.
  destruct (parent f); reflexivity.
Qed.

Lemma bounding_box_printed (f : SchField) :
  Console.printed (bounding_box f) =
  [[Console.Str "initial bb"; Console.Box (get_text_box f)]].
Proof. reflexivity. Qed.

Lemma is_horiz_justify_flipped_value (f : SchField) :
  Console.value (is_horiz_justify_flipped f) =
  let center := BBox_center (Console.value (bounding_box f)) in
  let pos := position f in
  let rot := Angle.degrees (draw_rotation f) in
  let is_vertical := (rot =? 90) || (rot =? 270) in
  match h_align f with
  | HAlign.left =>
      if is_vertical then Number.gtb (Vec2.y center) (Vec2.y pos)
      else Vec2.x center <? Vec2.x pos
  | HAlign.right =>
      if is_vertical then Vec2.y center <? Vec2.y pos
      else Number.gtb (Vec2.x center) (Vec2.x pos)
  | HAlign.center => false
  end.
Proof. reflexivity. Qed.

Lemma is_vert_justify_flipped_value (f : SchField) :
  Console.value (is_vert_justify_flipped f) =
  let center := BBox_center (Console.value (bounding_box f)) in
  let pos := position f in
  let rot := Angle.degrees (draw_rotation f) in
  let is_vertical := (rot =? 90) || (rot =? 270) in
  match v_align f with
  | VAlign.top =>
      if is_vertical then Vec2.x center <? Vec2.y pos
      else Vec2.y center <? Vec2.y pos
  | VAlign.bottom =>
      if is_vertical then Number.gtb (Vec2.x center) (Vec2.x pos)
      else Number.gtb (Vec2.y center) (Vec2.y pos)
  | VAlign.center => false
  end.
Proof. reflexivity. Qed.

(** A getter that binds the result of another returns what its continuation
    makes of that result. *)
Lemma value_bind {A B : Type} (m : Console.M A) (k : A -> Console.M B) :
  Console.value (Console.bind m k) = Console.value (k (Console.value m)).
Proof.
  destruct m as [a out1]. unfold Console.bind, Console.value. simpl.
  destruct (k a) as [b out2]. reflexivity.
Qed.

(** The coefficient [draw_rotation] looks at is 0 in the identity matrix. *)
Lemma identity_not_quarter_turn :
  (abs (Matrix3.element Matrix3.identity 1) =? 1) = false.
Proof. reflexivity. Qed.

(** ** The claims of the specification *)

(** C1. [draw_rotation] reads the coefficient at index 1 of the parent's
    transform (the identity matrix without a parent). When its magnitude is 1
    the result is 90 degrees for a text angle of 0 or 180 and 0 degrees for
    any other; when it is not 1, and so whenever there is no parent, the text
    angle passes through. The result is that degree value wrapped as an
    Angle; with magnitude 1 and a text angle of 0 its [degrees] is 90. *)
Theorem draw_rotation_cases (f : SchField) :
  let this_deg := Angle.degrees (text_angle f) in
  let entry := Matrix3.element (parent_transform f) 1 in
  ((abs entry =? 1) = true ->
     ((this_deg =? 0) || (this_deg =? 180) = true ->
        draw_rotation f = Angle.from_degrees 90) /\
     ((this_deg =? 0) || (this_deg =? 180) = false ->
        draw_rotation f = Angle.from_degrees 0)) /\
  ((abs entry =? 1) = false ->
     draw_rotation f = Angle.from_degrees this_deg) /\
  (parent f = None ->
     (abs entry =? 1) = false /\
     draw_rotation f = Angle.from_degrees this_deg) /\
  ((abs entry =? 1) = true -> (this_deg =? 0) = true ->
     Angle.degrees (draw_rotation f) = 90).
Proof.
  intros this_deg entry. unfold draw_rotation. fold this_deg entry.
  split; [ | split; [ | split ] ].
  - intros Hq. rewrite Hq. split; intros Hd; rewrite Hd; reflexivity.
  - intros Hq. rewrite Hq. reflexivity.
  - intros Hnone.
    assert (Hq : (abs entry =? 1) = false).
    { subst entry. unfold parent_transform. rewrite Hnone.
      apply identity_not_quarter_turn. }
    rewrite Hq. split; reflexivity.
  - intros Hq Hd. rewrite Hq, Hd. reflexivity.
Qed.

(** C3. Without a parent [position] returns [text_pos] unchanged; with a
    parent it returns the parent's transform applied to
    [text_pos - parent.position], with [parent.position] added back. *)
Theorem position_cases (f : SchField) :
  (parent f = None -> position f = text_pos f) /\
  (forall p, parent f = Some p ->
     position f =
     Vec2.add
       (Matrix3_transform (Parent.transform p)
          (Vec2.sub (text_pos f) (Parent.position p)))
       (Parent.position p)).
Proof.
  unfold position. split.
  - intros Hnone. rewrite Hnone. reflexivity.
  - intros p Hsome. rewrite Hsome. reflexivity.
Qed.

(** C8 as amended. [shown_text] returns the empty string when [text] is
    exactly "~" and returns [text] unchanged for every other string; so the
    result is empty exactly when [text] is "~" or is itself empty. *)
Theorem shown_text_cases (f : SchField) :
  (text f = "~" -> shown_text f = "") /\
  (text f <> "~" -> shown_text f = text f) /\
  (shown_text f = "" <-> text f = "~" \/ text f = "").
Proof.
  unfold shown_text.
  destruct (String.eqb_spec (text f) "~") as [Heq | Hne].
  - repeat split; auto; contradiction.
  - repeat split; auto.
    + intros Heq. contradiction.
    + intros [Heq | Hempty]; [contradiction | assumption].
Qed.

(** C4. With [v_align] top, [is_vert_justify_flipped] returns
    [center.x < pos.y] when the draw rotation is 90 or 270 degrees (the axes
    differ, as in the source) and [center.y < pos.y] otherwise; with bottom it
    returns [center.x > pos.x] when vertical and [center.y > pos.y] otherwise;
    with center it returns false. [effective_vert_justify] swaps top and
    bottom exactly when flipped and leaves center unchanged. *)
Theorem vert_justify_cases (f : SchField) :
  let center := BBox_center (Console.value (bounding_box f)) in
  let pos := position f in
  let rot := Angle.degrees (draw_rotation f) in
  let is_vertical := (rot =? 90) || (rot =? 270) in
  let flipped := Console.value (is_vert_justify_flipped f) in
  (v_align f = VAlign.top ->
     flipped = if is_vertical then Vec2.x center <? Vec2.y pos
               else Vec2.y center <? Vec2.y pos) /\
  (v_align f = VAlign.bottom ->
     flipped = if is_vertical then Number.gtb (Vec2.x center) (Vec2.x pos)
               else Number.gtb (Vec2.y center) (Vec2.y pos)) /\
  (v_align f = VAlign.center -> flipped = false) /\
  Console.value (effective_vert_justify f) =
    (if flipped then VAlign.swap (v_align f) else v_align f).
Proof.
  intros center pos rot is_vertical flipped.
  assert (Hflipped := is_vert_justify_flipped_value f).
  fold flipped in Hflipped. cbv zeta in Hflipped.
  fold center pos rot is_vertical in Hflipped.
  unfold effective_vert_justify.
  destruct (v_align f) eqn:Halign.
  - rewrite value_bind. fold flipped.
    repeat apply conj; try discriminate; [ now intros _ | ].
    destruct flipped; reflexivity.
  - rewrite Hflipped.
    repeat apply conj; try discriminate; [ now intros _ | reflexivity ].
  - rewrite value_bind. fold flipped.
    repeat apply conj; try discriminate; [ now intros _ | ].
    destruct flipped; reflexivity.
Qed.

(** C5. With [h_align] left, [is_horiz_justify_flipped] returns
    [center.y > pos.y] when the draw rotation is 90 or 270 degrees and
    [center.x < pos.x] otherwise; with right the comparisons are reversed;
    with center it returns false. [effective_horiz_justify] maps left to
    right and right to left exactly when flipped and leaves center
    unchanged. *)
Theorem horiz_justify_cases (f : SchField) :
  let center := BBox_center (Console.value (bounding_box f)) in
  let pos := position f in
  let rot := Angle.degrees (draw_rotation f) in
  let is_vertical := (rot =? 90) || (rot =? 270) in
  let flipped := Console.value (is_horiz_justify_flipped f) in
  (h_align f = HAlign.left ->
     flipped = if is_vertical then Number.gtb (Vec2.y center) (Vec2.y pos)
               else Vec2.x center <? Vec2.x pos) /\
  (h_align f = HAlign.right ->
     flipped = if is_vertical then Vec2.y center <? Vec2.y pos
               else Number.gtb (Vec2.x center) (Vec2.x pos)) /\
  (h_align f = HAlign.center -> flipped = false) /\
  Console.value (effective_horiz_justify f) =
    (if flipped then HAlign.swap (h_align f) else h_align f).
Proof.
  intros center pos rot is_vertical flipped.
  assert (Hflipped := is_horiz_justify_flipped_value f).
  fold flipped in Hflipped. cbv zeta in Hflipped.
  fold center pos rot is_vertical in Hflipped.
  unfold effective_horiz_justify.
  destruct (h_align f) eqn:Halign.
  - rewrite value_bind. fold flipped.
    repeat apply conj; try discriminate; [ now intros _ | ].
    destruct flipped; reflexivity.
  - rewrite Hflipped.
    repeat apply conj; try discriminate; [ now intros _ | reflexivity ].
  - rewrite value_bind. fold flipped.
    repeat apply conj; try discriminate; [ now intros _ | ].
    destruct flipped; reflexivity.
Qed.

(** C2 as amended. After both corners are transformed, [bounding_box] adds
    the origin (the parent's position, or (0,0)) to the start corner only:
    the end corner it returns is the output of the transform. That end corner
    differs from the symmetric placement, output plus origin, whenever adding
    the origin changes the output; a non-zero origin that rounding absorbs
    leaves the two equal. *)
Theorem bounding_box_offsets_start_only (f : SchField) :
  let origin := parent_origin f in
  let s := transformed_corner f (BBox.start (get_text_box f)) in
  let e := transformed_corner f (BBox.end_ (get_text_box f)) in
  BBox.start (Console.value (bounding_box f)) = Vec2.add s origin /\
  BBox.end_ (Console.value (bounding_box f)) = e /\
  (Vec2.add e origin <> e ->
     BBox.end_ (Console.value (bounding_box f)) <> Vec2.add e origin).
Proof.
  intros origin s e. rewrite bounding_box_value. fold origin s e. simpl.
  split; [ reflexivity | split; [ reflexivity | ] ].
  intros Hmoves Hsame. apply Hmoves. symmetry. exact Hsame.
Qed.

(** C6. For a field without a parent on whose rotated corners the identity
    transform changes nothing: [position] is [text_pos], [draw_rotation] is
    [text_angle], and [bounding_box] is the base text box with both corners
    rotated about [text_pos] by [text_angle], not mirrored and not
    transformed. The start corner, to which (0,0) is added, is the rotated
    corner as JavaScript compares numbers (adding zero turns [-0] into
    [+0]). *)
Theorem unparented_field (f : SchField) :
  parent f = None ->
  let b := rotate_point (text_angle f) (BBox.start (get_text_box f))
             (text_pos f) in
  let e := rotate_point (text_angle f) (BBox.end_ (get_text_box f))
             (text_pos f) in
  Matrix3_transform Matrix3.identity b = b ->
  Matrix3_transform Matrix3.identity e = e ->
  position f = text_pos f /\
  draw_rotation f = text_angle f /\
  Vec2.equiv (BBox.start (Console.value (bounding_box f))) b /\
  BBox.end_ (Console.value (bounding_box f)) = e.
Proof.
  intros Hnone b e Hb He.
  split; [ | split ].
  - unfold position. rewrite Hnone. reflexivity.
  - unfold draw_rotation, parent_transform. rewrite Hnone.
    rewrite identity_not_quarter_turn.
    destruct (text_angle f) as [deg]. reflexivity.
  - rewrite bounding_box_value.
    unfold transformed_corner, placed_corner, rotated_corner, local_pos,
      parent_origin, parent_transform.
    rewrite Hnone, !Vec2_sub_zero. fold b e. rewrite Hb, He. simpl.
    split; [ apply Vec2_add_zero | reflexivity ].
Qed.

(** C7 as amended. [bounding_box] mirrors exactly when there is a parent:
    each corner's y, after the rotation about [pos] by [text_angle], is
    replaced by [-(y - pos.y) + pos.y], its mirror image about [pos.y],
    before the parent's transform is applied; without a parent the rotated
    corners go to the identity transform as they are. *)
Theorem bounding_box_mirrors_with_parent (f : SchField) :
  let pos := local_pos f in
  let b := rotated_corner f (BBox.start (get_text_box f)) in
  let e := rotated_corner f (BBox.end_ (get_text_box f)) in
  (forall p, parent f = Some p ->
     BBox.start (Console.value (bounding_box f)) =
       Vec2.add
         (Matrix3_transform (Parent.transform p)
            (Vec2.new (Vec2.x b) (- (Vec2.y b - Vec2.y pos) + Vec2.y pos)))
         (Parent.position p) /\
     BBox.end_ (Console.value (bounding_box f)) =
       Matrix3_transform (Parent.transform p)
         (Vec2.new (Vec2.x e) (- (Vec2.y e - Vec2.y pos) + Vec2.y pos))) /\
  (parent f = None ->
     BBox.start (Console.value (bounding_box f)) =
       Vec2.add (Matrix3_transform Matrix3.identity b) (Vec2.new 0 0) /\
     BBox.end_ (Console.value (bounding_box f)) =
       Matrix3_transform Matrix3.identity e).
Proof.
  intros pos b e. rewrite bounding_box_value.
  unfold transformed_corner, placed_corner, parent_transform.
  fold pos b e. split.
  - intros p Hsome. unfold parent_origin. rewrite Hsome. simpl.
    split; reflexivity.
  - intros Hnone. unfold parent_origin. rewrite Hnone. simpl.
    split; reflexivity.
Qed.

(** C9. What the accessors print: every call of [bounding_box] writes a line
    to the console, and so does every accessor that reads [bounding_box];
    [is_vert_justify_flipped] writes a second line of its own. *)
Theorem accessors_print (f : SchField) :
  let initial := [Console.Str "initial bb"; Console.Box (get_text_box f)] in
  let rot :=
    [Console.Str "draw rot"; Console.Num (Angle.degrees (draw_rotation f));
     Console.Str "center";
     Console.Point (BBox_center (Console.value (bounding_box f)))] in
  Console.printed (bounding_box f) = [initial] /\
  Console.printed (is_horiz_justify_flipped f) = [initial] /\
  Console.printed (is_vert_justify_flipped f) = [initial; rot] /\
  Console.printed (effective_horiz_justify f) =
    match h_align f with HAlign.center => [] | _ => [initial] end /\
  Console.printed (effective_vert_justify f) =
    match v_align f with VAlign.center => [] | _ => [initial; rot] end.
Proof.
  intros initial rot.
  repeat apply conj.
  - apply bounding_box_printed.
  - reflexivity.
  - reflexivity.
  - unfold effective_horiz_justify. destruct (h_align f); reflexivity.
  - unfold effective_vert_justify. destruct (v_align f); reflexivity.
Qed.

(** C10 as amended. For a field whose parent's transform is the identity
    matrix, and on whose relative position the identity transform changes
    nothing, [position] is [(text_pos - parent.position) + parent.position]
    as computed in doubles. That is [text_pos] when [parent.position] is
    (0,0); for another parent position the subtraction and the addition each
    round, and the result need not be [text_pos]. *)
Theorem position_identity_parent (f : SchField) (p : Parent.t) :
  parent f = Some p ->
  Parent.transform p = Matrix3.identity ->
  let relative_pos := Vec2.sub (text_pos f) (Parent.position p) in
  Matrix3_transform Matrix3.identity relative_pos = relative_pos ->
  position f = Vec2.add relative_pos (Parent.position p) /\
  (Parent.position p = Vec2.new 0 0 -> Vec2.equiv (position f) (text_pos f)).
Proof.
  intros Hsome Hid relative_pos Hneutral.
  assert (Hpos : position f = Vec2.add relative_pos (Parent.position p)).
  { unfold position. rewrite Hsome, Hid. fold relative_pos.
    rewrite Hneutral. reflexivity. }
  split; [ exact Hpos | ].
  intros Hzero. rewrite Hpos. subst relative_pos. rewrite Hzero.
  rewrite Vec2_sub_zero. apply Vec2_add_zero.
Qed.

(** ** Further properties of the accessors *)

(** *** Comparisons and the mirror on doubles *)

Lemma ltb_nan_l (a : float) : (nan <? a) = false.
Proof. rewrite ltb_spec. reflexivity. Qed.

Lemma ltb_nan_r (a : float) : (a <? nan) = false.
Proof.
  rewrite ltb_spec. change (Prim2SF nan) with S754_nan.
  destruct (Prim2SF a); reflexivity.
Qed.

(** No number is less than itself. *)
Lemma ltb_irrefl (a : float) : (a <? a) = false.
Proof.
  rewrite ltb_spec. unfold SFltb.
  destruct (Prim2SF a) as [s|s| |s m e]; simpl.
  - reflexivity.
  - destruct s; reflexivity.
  - reflexivity.
  - destruct s; rewrite Z.compare_refl, Pos.compare_cont_refl; reflexivity.
Qed.

(** [is_infinity] read off the representation. *)
Lemma is_infinity_spec (a : float) :
  is_infinity a =
  match Prim2SF a with S754_infinity _ => true | _ => false end.
Proof.
  unfold is_infinity. rewrite FloatAxioms.eqb_spec, abs_spec.
  change (Prim2SF infinity) with (S754_infinity false).
  destruct (Prim2SF a) as [s|s| |s m e]; reflexivity.
Qed.

(** The difference of a number that is not infinite with itself is [+0], or
    NaN for NaN. *)
Lemma sub_diag_spec (a : float) :
  is_infinity a = false ->
  Prim2SF (a - a) =
  match Prim2SF a with S754_nan => S754_nan | _ => S754_zero false end.
Proof.
  rewrite is_infinity_spec, sub_spec.
  destruct (Prim2SF a) as [s|s| |s m e]; intros Hfin.
  - destruct s; reflexivity.
  - discriminate.
  - reflexivity.
  - unfold SF64sub, SFsub. rewrite Z.sub_diag. reflexivity.
Qed.

(** Mirroring a number that is not infinite about itself returns it. *)
Lemma mirror_diag (a : float) : is_infinity a = false -> mirror a a = a.
Proof.
  intros Hfin. unfold mirror. apply Prim2SF_inj.
  rewrite add_spec, opp_spec, (sub_diag_spec a Hfin).
  destruct (Prim2SF a) as [s|s| |s m e]; try reflexivity.
  destruct s; reflexivity.
Qed.

(** What a getter that branches on the flip returns. *)
Lemma effective_horiz_justify_value (f : SchField) :
  Console.value (effective_horiz_justify f) =
  if Console.value (is_horiz_justify_flipped f)
  then HAlign.swap (h_align f) else h_align f.
Proof.
  unfold effective_horiz_justify.
  destruct (h_align f) eqn:Halign.
  - rewrite value_bind.
    destruct (Console.value (is_horiz_justify_flipped f)); reflexivity.
  - rewrite is_horiz_justify_flipped_value, Halign. reflexivity.
  - rewrite value_bind.
    destruct (Console.value (is_horiz_justify_flipped f)); reflexivity.
Qed.

Lemma effective_vert_justify_value (f : SchField) :
  Console.value (effective_vert_justify f) =
  if Console.value (is_vert_justify_flipped f)
  then VAlign.swap (v_align f) else v_align f.
Proof.
  unfold effective_vert_justify.
  destruct (v_align f) eqn:Valign.
  - rewrite value_bind.
    destruct (Console.value (is_vert_justify_flipped f)); reflexivity.
  - rewrite is_vert_justify_flipped_value, Valign. reflexivity.
  - rewrite value_bind.
    destruct (Console.value (is_vert_justify_flipped f)); reflexivity.
Qed.

(** *** The properties *)

(** X1. [shown_text] never returns the placeholder "~", and showing a text
    that has already been shown changes nothing. *)
Theorem shown_text_never_placeholder (f g : SchField) :
  shown_text f <> "~" /\
  (text g = shown_text f -> shown_text g = shown_text f).
Proof.
  unfold shown_text.
  destruct (String.eqb_spec (text f) "~") as [Heq | Hne].
  - split; [ discriminate | ]. intros Hg. rewrite Hg. reflexivity.
  - split; [ exact Hne | ]. intros Hg. rewrite Hg.
    destruct (String.eqb_spec (text f) "~"); [ contradiction | reflexivity ].
Qed.

(** X2. Whether a field is drawn vertically: under a parent whose transform
    has magnitude 1 at index 1 the draw rotation is 90 or 0 and the field is
    vertical exactly when its own angle is 0 or 180; otherwise it is vertical
    exactly when its own angle is 90 or 270. *)
Theorem vertical_after_draw_rotation (f : SchField) :
  let this_deg := Angle.degrees (text_angle f) in
  let rot := Angle.degrees (draw_rotation f) in
  is_vertical rot =
    (if quarter_turned f then (this_deg =? 0) || (this_deg =? 180)
     else is_vertical this_deg) /\
  (quarter_turned f = true -> rot = 90 \/ rot = 0).
Proof.
  intros this_deg rot. subst rot. unfold draw_rotation, quarter_turned.
  fold this_deg.
  destruct (abs (Matrix3.element (parent_transform f) 1) =? 1).
  - destruct ((this_deg =? 0) || (this_deg =? 180)).
    + split; [ reflexivity | intros _; left; reflexivity ].
    + split; [ reflexivity | intros _; right; reflexivity ].
  - split; [ reflexivity | discriminate ].
Qed.

(** X3. The four matrices KiCAD gives a symbol, as the comment in
    [draw_rotation] lists them: under the matrix of 0 or 180 degrees the
    text angle passes through; under the matrix of 90 or 270 degrees the
    field is drawn at 90 degrees for a text angle of 0 or 180 and at 0
    degrees otherwise. The other coefficients of the [Matrix3] play no
    part. *)
Theorem draw_rotation_under_kicad_matrix (f : SchField) (p : Parent.t) :
  parent f = Some p ->
  let m := kicad_matrix (Parent.transform p) in
  let this_deg := Angle.degrees (text_angle f) in
  (m = [1; 0; 0; -1] \/ m = [-1; 0; 0; 1] ->
     draw_rotation f = Angle.from_degrees this_deg) /\
  (m = [0; -1; -1; 0] \/ m = [0; 1; 1; 0] ->
     draw_rotation f =
     Angle.from_degrees
       (if (this_deg =? 0) || (this_deg =? 180) then 90 else 0)).
Proof.
  intros Hsome m this_deg. subst m. unfold kicad_matrix.
  unfold draw_rotation, parent_transform. rewrite Hsome. fold this_deg.
  split; intros [Hm | Hm]; injection Hm as _ Hentry _ _;
    rewrite Hentry; reflexivity.
Qed.

(** X4. Mirroring a number about itself returns it, whatever the number,
    unless it is infinite: then the result is NaN. *)
Theorem mirror_fixes_pivot (a : float) :
  (is_infinity a = false -> mirror a a = a) /\
  (is_infinity a = true -> is_nan (mirror a a) = true).
Proof.
  split; [ apply mirror_diag | ].
  intros Hinf. rewrite is_infinity_spec in Hinf.
  unfold mirror, is_nan.
  rewrite FloatAxioms.eqb_spec, add_spec, opp_spec, sub_spec.
  destruct (Prim2SF a) as [s|s| |s m e]; try discriminate.
  destruct s; reflexivity.
Qed.

(** X5. The anchor lands at [position]: for a field with a parent whose text
    box starts at [text_pos], when rotating the pivot about itself leaves it
    in place and its y is not infinite, the start corner of [bounding_box]
    is [position]. *)
Theorem anchor_lands_at_position (f : SchField) (p : Parent.t) :
  parent f = Some p ->
  BBox.start (get_text_box f) = text_pos f ->
  rotate_point (text_angle f) (local_pos f) (local_pos f) = local_pos f ->
  is_infinity (Vec2.y (local_pos f)) = false ->
  BBox.start (Console.value (bounding_box f)) = position f.
Proof.
  intros Hsome Hstart Hpivot Hfin.
  rewrite bounding_box_value. simpl.
  unfold transformed_corner, placed_corner, rotated_corner.
  rewrite Hstart. fold (local_pos f). rewrite Hpivot, Hsome.
  rewrite (mirror_diag _ Hfin).
  unfold position, parent_transform, parent_origin, local_pos, parent_origin.
  rewrite Hsome. unfold Vec2.set_y.
  destruct (Vec2.sub (text_pos f) (Parent.position p)) as [lx ly].
  reflexivity.
Qed.

(** X6. For a field whose parent is placed at (0,0), [position] is the
    parent's transform of [text_pos], up to the sign of a zero. *)
Theorem position_under_parent_at_origin (f : SchField) (p : Parent.t) :
  parent f = Some p ->
  Parent.position p = Vec2.new 0 0 ->
  Vec2.equiv (position f)
    (Matrix3_transform (Parent.transform p) (text_pos f)).
Proof.
  intros Hsome Hzero. unfold position. rewrite Hsome, Hzero.
  rewrite Vec2_sub_zero. apply Vec2_add_zero.
Qed.

(** X7. When the centre of the bounding box is NaN in both coordinates,
    neither justification is flipped and the effective justifications are
    the authored ones. *)
Theorem nan_center_keeps_justification (f : SchField) :
  BBox_center (Console.value (bounding_box f)) = Vec2.new nan nan ->
  Console.value (is_horiz_justify_flipped f) = false /\
  Console.value (is_vert_justify_flipped f) = false /\
  Console.value (effective_horiz_justify f) = h_align f /\
  Console.value (effective_vert_justify f) = v_align f.
Proof.
  intros Hnan.
  assert (Hh : Console.value (is_horiz_justify_flipped f) = false).
  { rewrite is_horiz_justify_flipped_value. cbv zeta. rewrite Hnan.
    fold (is_vertical (Angle.degrees (draw_rotation f))).
    unfold Number.gtb. cbn [Vec2.x Vec2.y].
    destruct (h_align f), (is_vertical (Angle.degrees (draw_rotation f)));
      auto using ltb_nan_l, ltb_nan_r. }
  assert (Hv : Console.value (is_vert_justify_flipped f) = false).
  { rewrite is_vert_justify_flipped_value. cbv zeta. rewrite Hnan.
    fold (is_vertical (Angle.degrees (draw_rotation f))).
    unfold Number.gtb. cbn [Vec2.x Vec2.y].
    destruct (v_align f), (is_vertical (Angle.degrees (draw_rotation f)));
      auto using ltb_nan_l, ltb_nan_r. }
  rewrite effective_horiz_justify_value, effective_vert_justify_value.
  rewrite Hh, Hv. repeat split.
Qed.

(** X8. The effective justification is centre exactly when the authored one
    is: flipping never turns a side into the centre nor the centre into a
    side. *)
Theorem effective_justify_keeps_center (f : SchField) :
  (Console.value (effective_horiz_justify f) = HAlign.center <->
   h_align f = HAlign.center) /\
  (Console.value (effective_vert_justify f) = VAlign.center <->
   v_align f = VAlign.center).
Proof.
  rewrite effective_horiz_justify_value, effective_vert_justify_value.
  split.
  - destruct (Console.value (is_horiz_justify_flipped f)), (h_align f);
      simpl; split; intros Heq; try discriminate Heq; reflexivity.
  - destruct (Console.value (is_vert_justify_flipped f)), (v_align f);
      simpl; split; intros Heq; try discriminate Heq; reflexivity.
Qed.

(** X9. When the box is centred on [position], the comparisons being strict,
    the horizontal justification is not flipped, and the vertical one is
    flipped in one case only: a top-aligned field drawn vertically, where
    [center.x < pos.y] compares the x of the position with its y. *)
Theorem centered_box_flips (f : SchField) :
  BBox_center (Console.value (bounding_box f)) = position f ->
  let pos := position f in
  let vertical := is_vertical (Angle.degrees (draw_rotation f)) in
  Console.value (is_horiz_justify_flipped f) = false /\
  Console.value (is_vert_justify_flipped f) =
    match v_align f with
    | VAlign.top => vertical && (Vec2.x pos <? Vec2.y pos)
    | _ => false
    end.
Proof.
  intros Hcenter pos vertical.
  rewrite is_horiz_justify_flipped_value, is_vert_justify_flipped_value.
  cbv zeta. rewrite Hcenter. fold pos. unfold Number.gtb.
  fold (is_vertical (Angle.degrees (draw_rotation f))). fold vertical.
  split.
  - destruct (h_align f), vertical; auto using ltb_irrefl.
  - destruct (v_align f), vertical; auto using ltb_irrefl.
Qed.

End Placement.

(** ** The claims on sample fields *)

(** C1 on "REF1" under a symbol turned by 90 degrees: drawn at 90 degrees. *)
Lemma draw_rotation_cases_witness :
  Angle.degrees (draw_rotation (Sample.ref1 (Some Sample.turned))) = 90.
Proof.
  exact (proj2 (proj2 (proj2
           (draw_rotation_cases (Sample.ref1 (Some Sample.turned)))))
           eq_refl eq_refl).
Defined.

(** C3 on "REF1" without a parent and under the upright symbol. *)
Lemma position_cases_witness :
  position Sample.transform (Sample.ref1 None) = Vec2.new 10 5 /\
  position Sample.transform (Sample.ref1 (Some Sample.upright)) =
    Vec2.add
      (Sample.transform Sample.rot0
         (Vec2.sub (Vec2.new 10 5) (Vec2.new 101.6 50.8)))
      (Vec2.new 101.6 50.8).
Proof.
  split.
  - exact (proj1 (position_cases Sample.transform (Sample.ref1 None))
             eq_refl).
  - exact (proj2
             (position_cases Sample.transform
                (Sample.ref1 (Some Sample.upright)))
             Sample.upright eq_refl).
Defined.

(** C4 on "REF1", aligned top, under the symbol turned by 90 degrees: the
    vertical branch compares [center.x] with [pos.y]. *)
Lemma vert_justify_cases_witness :
  Console.value
    (is_vert_justify_flipped Sample.rotate_point Sample.transform
       Sample.ref1_box Sample.center (Sample.ref1 (Some Sample.turned))) =
  (Vec2.x
     (Sample.center
        (Console.value
           (bounding_box Sample.rotate_point Sample.transform Sample.ref1_box
              (Sample.ref1 (Some Sample.turned))))) <?
   Vec2.y (position Sample.transform (Sample.ref1 (Some Sample.turned)))).
Proof.
  exact (proj1
           (vert_justify_cases Sample.rotate_point Sample.transform
              Sample.ref1_box Sample.center
              (Sample.ref1 (Some Sample.turned)))
           eq_refl).
Defined.

(** C5 on "REF1", aligned left, under the upright symbol: not vertical, so
    [center.x] is compared with [pos.x]. *)
Lemma horiz_justify_cases_witness :
  Console.value
    (is_horiz_justify_flipped Sample.rotate_point Sample.transform
       Sample.ref1_box Sample.center (Sample.ref1 (Some Sample.upright))) =
  (Vec2.x
     (Sample.center
        (Console.value
           (bounding_box Sample.rotate_point Sample.transform Sample.ref1_box
              (Sample.ref1 (Some Sample.upright))))) <?
   Vec2.x (position Sample.transform (Sample.ref1 (Some Sample.upright)))).
Proof.
  exact (proj1
           (horiz_justify_cases Sample.rotate_point Sample.transform
              Sample.ref1_box Sample.center
              (Sample.ref1 (Some Sample.upright)))
           eq_refl).
Defined.

(** C2, as the claim states it, fails for "REF1" under a symbol placed 2^-80
    off the origin: the parent's position is not zero, yet the end corner
    returned equals the symmetric placement, the output of the transform plus
    the origin, because 17.62 + 2^-80 rounds to 17.62. *)
Lemma end_corner_absorbs_origin :
  parent (Sample.ref1 (Some Sample.nearly_at_origin)) =
    Some Sample.nearly_at_origin /\
  (Vec2.x (Parent.position Sample.nearly_at_origin) =? 0) = false /\
  BBox.end_
    (Console.value
       (bounding_box Sample.rotate_point Sample.transform Sample.ref1_box
          (Sample.ref1 (Some Sample.nearly_at_origin)))) =
  Vec2.add
    (transformed_corner Sample.rotate_point Sample.transform
       (Sample.ref1 (Some Sample.nearly_at_origin))
       (BBox.end_
          (Sample.ref1_box (Sample.ref1 (Some Sample.nearly_at_origin)))))
    (Parent.position Sample.nearly_at_origin).
Proof. repeat split. Qed.

(** C2 as amended, on "REF1" under the upright symbol at (101.6, 50.8):
    adding the origin moves the end corner, and the box has the corner that
    was not moved. *)
Lemma bounding_box_offsets_start_only_witness :
  BBox.end_
    (Console.value
       (bounding_box Sample.rotate_point Sample.transform Sample.ref1_box
          (Sample.ref1 (Some Sample.upright)))) <>
  Vec2.add
    (transformed_corner Sample.rotate_point Sample.transform
       (Sample.ref1 (Some Sample.upright))
       (BBox.end_ (Sample.ref1_box (Sample.ref1 (Some Sample.upright)))))
    (Vec2.new 101.6 50.8).
Proof.
  apply (bounding_box_offsets_start_only Sample.rotate_point Sample.transform
           Sample.ref1_box (Sample.ref1 (Some Sample.upright))).
  intros Hsame. apply (f_equal Vec2.x) in Hsame. vm_compute in Hsame.
  revert Hsame. apply eqb_false_neq; reflexivity.
Defined.

(** C6 on "REF1" without a parent: the box is the text box itself. *)
Lemma unparented_field_witness :
  position Sample.transform (Sample.ref1 None) = Vec2.new 10 5 /\
  draw_rotation (Sample.ref1 None) = Angle.from_degrees 0 /\
  Vec2.equiv
    (BBox.start
       (Console.value
          (bounding_box Sample.rotate_point Sample.transform Sample.ref1_box
             (Sample.ref1 None))))
    (Vec2.new 10 5) /\
  BBox.end_
    (Console.value
       (bounding_box Sample.rotate_point Sample.transform Sample.ref1_box
          (Sample.ref1 None))) =
  Vec2.add (Vec2.new 10 5) (Vec2.new 7.62 1.27).
Proof.
  exact (unparented_field Sample.rotate_point Sample.transform
           Sample.ref1_box (Sample.ref1 None) eq_refl eq_refl eq_refl).
Defined.

(** C7, as the claim states it, fails for "U1": the end corner of its box
    has y = 6.35 after the rotation and [pos.y] is 1.27; the source's
    [-(y - pos.y) + pos.y] gives -3.81 where [2*pos.y - y] gives
    -3.8099999999999996, and the boxes built from the two differ. *)
Lemma mirror_differs_from_spec_formula :
  Vec2.y
    (rotated_corner Sample.rotate_point Sample.u1
       (BBox.end_ (Sample.u1_box Sample.u1))) = 6.35 /\
  Vec2.y (local_pos Sample.u1) = 1.27 /\
  mirror 6.35 1.27 = -3.81 /\
  mirror_spec 6.35 1.27 = -3.8099999999999996 /\
  (-3.81 =? -3.8099999999999996) = false /\
  BBox.end_
    (Console.value
       (bounding_box Sample.rotate_point Sample.transform Sample.u1_box
          Sample.u1)) = Vec2.new 10.16 3.81 /\
  Sample.transform (parent_transform Sample.u1)
    (placed_corner_spec Sample.rotate_point Sample.u1
       (BBox.end_ (Sample.u1_box Sample.u1))) =
  Vec2.new 10.16 3.8099999999999996.
Proof. repeat split. Qed.

(** C7 as amended, on "U1": the end corner of the box is the transform of
    the rotated corner with its y mirrored by the source's formula. *)
Lemma bounding_box_mirrors_with_parent_witness :
  BBox.end_
    (Console.value
       (bounding_box Sample.rotate_point Sample.transform Sample.u1_box
          Sample.u1)) =
  Sample.transform Sample.rot0
    (Vec2.new (2.54 + 7.62) (- ((1.27 + 5.08) - 1.27) + 1.27)).
Proof.
  exact (proj2
           (proj1
              (bounding_box_mirrors_with_parent Sample.rotate_point
                 Sample.transform Sample.u1_box Sample.u1)
              (Parent.new (Vec2.new 0 0) Sample.rot0) eq_refl)).
Defined.

(** C8, as the claim states it, fails for a field whose text is empty:
    [shown_text] returns the empty string although the text is not "~". *)
Lemma shown_text_of_empty_text :
  shown_text (Sample.field "" (Vec2.new 10 5) None) = "" /\
  text (Sample.field "" (Vec2.new 10 5) None) <> "~".
Proof.
  split; [ reflexivity | ].
  simpl. intros Habsurd. discriminate Habsurd.
Qed.

(** C8 as amended, on the placeholder and on a text that merely contains
    it. *)
Lemma shown_text_cases_witness :
  shown_text (Sample.field "~" (Vec2.new 10 5) None) = "" /\
  shown_text (Sample.field "a~b" (Vec2.new 10 5) None) = "a~b".
Proof.
  split.
  - exact (proj1 (shown_text_cases (Sample.field "~" (Vec2.new 10 5) None))
             eq_refl).
  - apply (proj1 (proj2
             (shown_text_cases (Sample.field "a~b" (Vec2.new 10 5) None)))).
    simpl. intros Habsurd. discriminate Habsurd.
Defined.

(** C10, as the claim states it, fails for "R1" at (25.4, 50.8) under a
    parent at (127, 76.2) whose transform is the identity matrix:
    (25.4 - 127) + 127 is 25.400000000000006 in doubles. *)
Lemma position_rounds_under_identity_parent :
  parent Sample.r1 =
    Some (Parent.new (Vec2.new 127 76.2) Matrix3.identity) /\
  text_pos Sample.r1 = Vec2.new 25.4 50.8 /\
  position Sample.transform Sample.r1 = Vec2.new 25.400000000000006 50.8 /\
  Number.same_value_zero
    (Vec2.x (position Sample.transform Sample.r1))
    (Vec2.x (text_pos Sample.r1)) = false.
Proof. repeat split. Qed.

(** C10 as amended, on "REF1" under a parent at (0,0) whose transform is the
    identity matrix. *)
Lemma position_identity_parent_witness :
  position Sample.transform Sample.ref1_at_origin =
    Vec2.add (Vec2.sub (Vec2.new 10 5) (Vec2.new 0 0)) (Vec2.new 0 0) /\
  Vec2.equiv (position Sample.transform Sample.ref1_at_origin)
    (Vec2.new 10 5).
Proof.
  destruct (position_identity_parent Sample.transform Sample.ref1_at_origin
              (Parent.new (Vec2.new 0 0) Matrix3.identity)
              eq_refl eq_refl eq_refl) as [Hpos Hzero].
  split; [ exact Hpos | exact (Hzero eq_refl) ].
Defined.

(** ** Properties of the viewer's [select] *)

Section Select.

Variable SchematicSymbol : Type.
Variable Viewer : Type.
Variable find_symbol : Viewer -> string -> option SchematicSymbol.
Variable query_item_bboxes : Viewer -> SchematicSymbol -> list BBox.t.
Variable first : list BBox.t -> option BBox.t.
Variable set_selected : option BBox.t -> Viewer -> Viewer.

(** The two ways a call of [select] ends, by what the value resolves to. *)
Lemma select_run (v : SchematicViewer.value SchematicSymbol) (viewer : Viewer) :
  SchematicViewer.select find_symbol query_item_bboxes first set_selected
    v viewer =
  match v, SchematicViewer.resolve find_symbol query_item_bboxes first
             v viewer with
  | SchematicViewer.Null, _ =>
      {| SchematicViewer.thrown := None;
         SchematicViewer.printed := [];
         SchematicViewer.viewer_after := set_selected None viewer |}
  | _, Some b =>
      {| SchematicViewer.thrown := None;
         SchematicViewer.printed := [];
         SchematicViewer.viewer_after := set_selected (Some b) viewer |}
  | _, None =>
      {| SchematicViewer.thrown := Some (SchematicViewer.Unable_to_select v);
         SchematicViewer.printed := [(v, SchematicViewer.Null)];
         SchematicViewer.viewer_after := viewer |}
  end.
Proof.
  unfold SchematicViewer.select, SchematicViewer.resolve.
  destruct v as [s | sym | b | ].
  - destruct (find_symbol viewer s) as [sym | ]; [ | reflexivity ].
    destruct (first (query_item_bboxes viewer sym)); reflexivity.
  - destruct (first (query_item_bboxes viewer sym)); reflexivity.
  - reflexivity.
  - reflexivity.
Qed.

(** X10. [select] returns without throwing exactly when the value is [null]
    or resolves to a box (a box itself, the first box of a symbol, the first
    box of the symbol a name finds). It then prints nothing and assigns the
    box it resolved to, or [null], to [selected]. *)
Theorem select_returns_iff_resolved
    (v : SchematicViewer.value SchematicSymbol) (viewer : Viewer) :
  let r := SchematicViewer.select find_symbol query_item_bboxes first
             set_selected v viewer in
  let found := SchematicViewer.resolve find_symbol query_item_bboxes first
                 v viewer in
  (SchematicViewer.thrown r = None <->
   v = SchematicViewer.Null \/ exists b, found = Some b) /\
  (SchematicViewer.thrown r = None ->
   SchematicViewer.printed r = [] /\
   SchematicViewer.viewer_after r = set_selected found viewer).
Proof.
  intros r found. subst r found. rewrite select_run.
  destruct v as [s | sym | b | ];
    destruct (SchematicViewer.resolve find_symbol query_item_bboxes first _
                viewer) as [b' | ] eqn:Hfound; simpl;
    try discriminate Hfound.
  all: split; [ split | ].
  all: try (intros _; right; exists b'; reflexivity).
  all: try (intros _; left; reflexivity).
  all: try (intros _; split; reflexivity).
  all: try reflexivity.
  all: try discriminate.
  all: intros [Hnull | [b0 Hb0]]; discriminate.
Qed.

(** X11. A [select] that fails changes nothing: when the value is not [null]
    and resolves to no box, the error thrown quotes the value, the viewer is
    left as it was ([selected] is not assigned), and the one line printed
    shows the value and [null]. *)
Theorem select_failure_keeps_viewer
    (v : SchematicViewer.value SchematicSymbol) (viewer : Viewer) :
  v <> SchematicViewer.Null ->
  SchematicViewer.resolve find_symbol query_item_bboxes first v viewer
    = None ->
  let r := SchematicViewer.select find_symbol query_item_bboxes first
             set_selected v viewer in
  SchematicViewer.thrown r = Some (SchematicViewer.Unable_to_select v) /\
  SchematicViewer.printed r = [(v, SchematicViewer.Null)] /\
  SchematicViewer.viewer_after r = viewer.
Proof.
  intros Hvalue Hnone r. subst r. rewrite select_run.
  destruct v as [s | sym | b | ]; try contradiction;
    rewrite Hnone; repeat split.
Qed.

(** X12. Selecting by name is selecting the symbol the name finds: the two
    calls leave the same viewer, and one throws exactly when the other
    does. *)
Theorem select_by_name_as_by_symbol
    (s : string) (sym : SchematicSymbol) (viewer : Viewer) :
  find_symbol viewer s = Some sym ->
  let by_name := SchematicViewer.select find_symbol query_item_bboxes first
                   set_selected (SchematicViewer.Name s) viewer in
  let by_symbol := SchematicViewer.select find_symbol query_item_bboxes first
                     set_selected (SchematicViewer.Symbol sym) viewer in
  SchematicViewer.viewer_after by_name =
    SchematicViewer.viewer_after by_symbol /\
  (SchematicViewer.thrown by_name = None <->
   SchematicViewer.thrown by_symbol = None).
Proof.
  intros Hfound by_name by_symbol. subst by_name by_symbol.
  rewrite !select_run. unfold SchematicViewer.resolve. rewrite Hfound.
  destruct (first (query_item_bboxes viewer sym)); simpl.
  - split; [ reflexivity | split; reflexivity ].
  - split; [ reflexivity | split; discriminate ].
Qed.

End Select.

(** ** The further properties on sample data *)

(** X1 on the placeholder: what is shown for "~" is shown again as
    itself. *)
Lemma shown_text_never_placeholder_witness :
  shown_text (Sample.field "" (Vec2.new 10 5) None) =
  shown_text (Sample.field "~" (Vec2.new 10 5) None).
Proof.
  exact (proj2
           (shown_text_never_placeholder
              (Sample.field "~" (Vec2.new 10 5) None)
              (Sample.field "" (Vec2.new 10 5) None))
           eq_refl).
Defined.

(** X2 on "REF1" under the symbol turned by 90 degrees. *)
Lemma vertical_after_draw_rotation_witness :
  Angle.degrees (draw_rotation (Sample.ref1 (Some Sample.turned))) = 90 \/
  Angle.degrees (draw_rotation (Sample.ref1 (Some Sample.turned))) = 0.
Proof.
  exact (proj2
           (vertical_after_draw_rotation (Sample.ref1 (Some Sample.turned)))
           eq_refl).
Defined.

(** X3 on "REF1" under the upright symbol and under the turned one. *)
Lemma draw_rotation_under_kicad_matrix_witness :
  draw_rotation (Sample.ref1 (Some Sample.upright)) = Angle.from_degrees 0 /\
  draw_rotation (Sample.ref1 (Some Sample.turned)) = Angle.from_degrees 90.
Proof.
  split.
  - exact (proj1
             (draw_rotation_under_kicad_matrix
                (Sample.ref1 (Some Sample.upright)) Sample.upright eq_refl)
             (or_introl eq_refl)).
  - exact (proj2
             (draw_rotation_under_kicad_matrix
                (Sample.ref1 (Some Sample.turned)) Sample.turned eq_refl)
             (or_introl eq_refl)).
Defined.

(** X4 on 1.27 and on Infinity. *)
Lemma mirror_fixes_pivot_witness :
  mirror 1.27 1.27 = 1.27 /\ is_nan (mirror infinity infinity) = true.
Proof.
  split.
  - exact (proj1 (mirror_fixes_pivot 1.27) eq_refl).
  - exact (proj2 (mirror_fixes_pivot infinity) eq_refl).
Defined.

(** X5 on "C1", anchored 2.54 right of and 1.27 below the upright symbol. *)
Lemma anchor_lands_at_position_witness :
  BBox.start
    (Console.value
       (bounding_box Sample.rotate_point Sample.transform Sample.ref1_box
          Scenario.anchored)) =
  position Sample.transform Scenario.anchored.
Proof.
  exact (anchor_lands_at_position Sample.rotate_point Sample.transform
           Sample.ref1_box Scenario.anchored Sample.upright
           eq_refl eq_refl eq_refl eq_refl).
Defined.

(** X6 on "U1", whose parent is at (0,0). *)
Lemma position_under_parent_at_origin_witness :
  Vec2.equiv (position Sample.transform Sample.u1)
    (Sample.transform Sample.rot0 (Vec2.new 2.54 1.27)).
Proof.
  exact (position_under_parent_at_origin Sample.transform Sample.u1
           (Parent.new (Vec2.new 0 0) Sample.rot0) eq_refl eq_refl).
Defined.

(** X7 on "REF1" with a text box of unknown size. *)
Lemma nan_center_keeps_justification_witness :
  Console.value
    (effective_horiz_justify Sample.rotate_point Sample.transform
       Scenario.broken_box Sample.center (Sample.ref1 (Some Sample.upright)))
    = HAlign.left /\
  Console.value
    (effective_vert_justify Sample.rotate_point Sample.transform
       Scenario.broken_box Sample.center (Sample.ref1 (Some Sample.upright)))
    = VAlign.top.
Proof.
  destruct (nan_center_keeps_justification Sample.rotate_point
              Sample.transform Scenario.broken_box Sample.center
              (Sample.ref1 (Some Sample.upright)) eq_refl)
    as (_ & _ & Hh & Hv).
  split; [ exact Hh | exact Hv ].
Defined.

(** X9 on "REF1" without a parent, its box centred on (10, 5). *)
Lemma centered_box_flips_witness :
  Console.value
    (is_horiz_justify_flipped Sample.rotate_point Sample.transform
       Sample.ref1_box Scenario.fixed_center (Sample.ref1 None)) = false.
Proof.
  exact (proj1
           (centered_box_flips Sample.rotate_point Sample.transform
              Sample.ref1_box Scenario.fixed_center (Sample.ref1 None)
              eq_refl)).
Defined.

(** X10 on the loaded schematic: selecting "R1" by name selects its box. *)
Lemma select_returns_iff_resolved_witness :
  SchematicViewer.viewer_after
    (SchematicViewer.select Scenario.find_symbol Scenario.query_item_bboxes
       Scenario.first Scenario.set_selected (SchematicViewer.Name "R1")
       Scenario.loaded) =
  Scenario.set_selected (Some Scenario.r1_box) Scenario.loaded.
Proof.
  exact (proj2
           (proj2
              (select_returns_iff_resolved string Scenario.viewer
                 Scenario.find_symbol Scenario.query_item_bboxes
                 Scenario.first Scenario.set_selected
                 (SchematicViewer.Name "R1") Scenario.loaded)
              eq_refl)).
Defined.

(** X11 on the loaded schematic: "C1" is a symbol of it but has no box, and
    "Q7" is no symbol of it. *)
Lemma select_failure_keeps_viewer_witness :
  SchematicViewer.viewer_after
    (SchematicViewer.select Scenario.find_symbol Scenario.query_item_bboxes
       Scenario.first Scenario.set_selected (SchematicViewer.Name "C1")
       Scenario.loaded) = Scenario.loaded /\
  SchematicViewer.thrown
    (SchematicViewer.select Scenario.find_symbol Scenario.query_item_bboxes
       Scenario.first Scenario.set_selected (SchematicViewer.Name "Q7")
       Scenario.loaded) =
  Some (SchematicViewer.Unable_to_select (SchematicViewer.Name "Q7")).
Proof.
  split.
  - apply (select_failure_keeps_viewer string Scenario.viewer
             Scenario.find_symbol Scenario.query_item_bboxes Scenario.first
             Scenario.set_selected (SchematicViewer.Name "C1")
             Scenario.loaded);
      [ discriminate | reflexivity ].
  - apply (select_failure_keeps_viewer string Scenario.viewer
             Scenario.find_symbol Scenario.query_item_bboxes Scenario.first
             Scenario.set_selected (SchematicViewer.Name "Q7")
             Scenario.loaded);
      [ discriminate | reflexivity ].
Defined.

(** X12 on the loaded schematic: the name "R1" and the symbol R1. *)
Lemma select_by_name_as_by_symbol_witness :
  SchematicViewer.viewer_after
    (SchematicViewer.select Scenario.find_symbol Scenario.query_item_bboxes
       Scenario.first Scenario.set_selected (SchematicViewer.Name "R1")
       Scenario.loaded) =
  SchematicViewer.viewer_after
    (SchematicViewer.select Scenario.find_symbol Scenario.query_item_bboxes
       Scenario.first Scenario.set_selected (SchematicViewer.Symbol "R1")
       Scenario.loaded).
Proof.
  exact (proj1
           (select_by_name_as_by_symbol string Scenario.viewer
              Scenario.find_symbol Scenario.query_item_bboxes Scenario.first
              Scenario.set_selected "R1" "R1" Scenario.loaded eq_refl)).
Defined.
